(** * Shallow embedding of etl_project_gdp_chatedit.py

    The script fetches an archived HTML page, extracts (country, GDP text)
    rows from the third table body, converts GDP to billions, writes a CSV
    file and a SQLite table and runs one query, logging every stage.

    Modelling choices:
    - the parsed page (the output of [BeautifulSoup(page, 'html.parser')]) is
      a tree of elements and text nodes; attributes play no role in the code
      and are left out;
    - Python strings are Rocq strings (characters are ASCII);
    - the numbers pandas and numpy compute with are IEEE-754 binary64
      values ([f64]): a finite double is kept as the rational it denotes,
      and every operation the code performs (parsing in [pd.to_numeric],
      the division by 1000, numpy's [round(2)]: multiply by 100, [rint],
      divide by 100) rounds its exact result to the nearest double, ties to
      even, overflowing to infinity; the parser of [pd.to_numeric] is taken
      to round correctly;
    - a pandas DataFrame is a list of records, one per row, in index order;
    - the top-level script is a state and exception monad over the files,
      the database and the output streams it touches. *)

From Stdlib Require Import String Ascii List ZArith QArith Bool Lia.
Import ListNotations.

Open Scope string_scope.
Set Warnings "-register-all".

(* ------------------------------------------------------------------ *)
(** ** Python exceptions and results *)

Inductive exn :=
| IndexError        (** [tables[2]] or [col[2]] out of range *)
| NameError         (** reading the unbound global [conn] *)
| RequestError      (** [requests.get] fails (network) *)
| OSError           (** a file cannot be opened for writing *)
| DatabaseError.    (** [sqlite3.connect] fails *)

(** [str(e)] as interpolated in [f'ERROR: {e}']. *)
Definition exn_msg (e : exn) : string :=
  match e with
  | IndexError => "list index out of range"
  | NameError => "name 'conn' is not defined"
  | RequestError => "connection error"
  | OSError => "permission denied"
  | DatabaseError => "unable to open database file"
  end.

Inductive result (A : Type) : Type :=
| Ok (a : A)
| Err (e : exn).
Arguments Ok {A} a.
Arguments Err {A} e.

(** Python list indexing [l[i]] for [i >= 0]. *)
Definition py_index {A} (l : list A) (i : nat) : result A :=
  match nth_error l i with
  | Some x => Ok x
  | None => Err IndexError
  end.

(* ------------------------------------------------------------------ *)
(** ** Characters and strings *)

(** [str.isspace] on ASCII: \t \n \v \f \r, \x1c-\x1f and space. *)
Definition is_space (c : ascii) : bool :=
  let n := nat_of_ascii c in
  (((9 <=? n) && (n <=? 13)) || ((28 <=? n) && (n <=? 32)))%nat.

(** [str.isdigit] (and the regex class [\d]) on ASCII. *)
Definition is_digit (c : ascii) : bool :=
  let n := nat_of_ascii c in ((48 <=? n) && (n <=? 57))%nat.

Fixpoint drop_space (cs : list ascii) : list ascii :=
  match cs with
  | [] => []
  | c :: cs' => if is_space c then drop_space cs' else cs
  end.

(** [str.strip()]. *)
Definition py_strip (s : string) : string :=
  string_of_list_ascii
    (rev (drop_space (rev (drop_space (list_ascii_of_string s))))).

(** [any(ch.isdigit() for ch in s)]. *)
Definition has_digit (s : string) : bool :=
  existsb is_digit (list_ascii_of_string s).

(* ------------------------------------------------------------------ *)
(** ** The parsed HTML document *)

Inductive node : Type :=
| Text (s : string)
| Elem (tag : string) (children : list node).

(** Elements with the given tag in the subtree rooted at [n], [n] included,
    in document (pre-)order. *)
Fixpoint subtree_with (tag : string) (n : node) : list node :=
  match n with
  | Text _ => []
  | Elem t cs =>
      app (if String.eqb t tag then [n] else [])
          ((fix go (cs : list node) : list node :=
              match cs with
              | [] => []
              | c :: cs' => app (subtree_with tag c) (go cs')
              end) cs)
  end.

(** [n.find_all(tag)]: all descendants (not [n] itself) with that tag, in
    document order. *)
Definition find_all (tag : string) (n : node) : list node :=
  match n with
  | Text _ => []
  | Elem _ cs => flat_map (subtree_with tag) cs
  end.

(** [n.find(tag)] and [n.tag]: the first such descendant, or [None]. *)
Definition find (tag : string) (n : node) : option node :=
  head (find_all tag n).

(** The text nodes below [n], in document order. *)
Fixpoint strings (n : node) : list string :=
  match n with
  | Text s => [s]
  | Elem _ cs =>
      (fix go (cs : list node) : list string :=
         match cs with
         | [] => []
         | c :: cs' => app (strings c) (go cs')
         end) cs
  end.

(** [n.get_text(strip=True)]: every text piece stripped, empty pieces
    dropped, the rest concatenated with the empty separator. *)
Definition get_text_strip (n : node) : string :=
  String.concat ""
    (filter (fun s => negb (String.eqb s "")) (map py_strip (strings n))).

(* ------------------------------------------------------------------ *)
(** ** extract *)

(** A row of the DataFrame built by [extract], columns
    [table_attribs = ['Country', 'GDP_USD_millions']]. *)
Record RawRow := mkRawRow {
  raw_Country : string;
  GDP_USD_millions : string
}.

(** The body of the [for row in rows] loop: [Ok None] when the row is
    skipped, [Ok (Some r)] when [r] is appended, [Err] when it raises. *)
Definition extract_row (row : node) : result (option RawRow) :=
  let col := find_all "td" row in
  match col with
  | [] => Ok None
  | col0 :: _ =>
      match find "a" col0 with
      | None => Ok None
      | Some a =>
          let country := get_text_strip a in
          match py_index col 2 with
          | Err e => Err e
          | Ok col2 =>
              let gdp_raw := get_text_strip col2 in
              if has_digit gdp_raw
              then Ok (Some (mkRawRow country gdp_raw))
              else Ok None
          end
      end
  end.

(** The loop, with the DataFrame [df] grown by [pd.concat] at its end. *)
Fixpoint extract_rows (rows : list node) (df : list RawRow)
  : result (list RawRow) :=
  match rows with
  | [] => Ok df
  | row :: rows' =>
      match extract_row row with
      | Err e => Err e
      | Ok None => extract_rows rows' df
      | Ok (Some r) => extract_rows rows' (app df [r])
      end
  end.

(** [extract] after the page has been fetched and parsed into [data]. *)
Definition extract (data : node) : result (list RawRow) :=
  let tables := find_all "tbody" data in
  match py_index tables 2 with
  | Err e => Err e
  | Ok tb => extract_rows (find_all "tr" tb) []
  end.

(* ------------------------------------------------------------------ *)
(** ** transform *)

(** [.str.replace(r'[^\d.]', '', regex=True)]: keep digits and periods. *)
Definition clean (s : string) : string :=
  string_of_list_ascii
    (filter (fun c => is_digit c || Ascii.eqb c ".") (list_ascii_of_string s)).

Fixpoint pow10 (k : nat) : positive :=
  match k with
  | O => 1%positive
  | S k' => (10 * pow10 k')%positive
  end.

Definition digit_value (c : ascii) : Z := Z.of_nat (nat_of_ascii c - 48).

(** Scanner for a decimal numeral [digits [. digits]] or [. digits]:
    [m] is the mantissa read so far, [k] the number of digits after the
    period, [dot] whether the period was seen, [nd] the number of digits. *)
Fixpoint scan_decimal (cs : list ascii) (m : Z) (k : nat) (dot : bool)
  (nd : nat) : option (Z * nat * nat) :=
  match cs with
  | [] => Some (m, k, nd)
  | c :: cs' =>
      if is_digit c
      then scan_decimal cs' (m * 10 + digit_value c)
             (if dot then S k else k) dot (S nd)
      else if Ascii.eqb c "."
      then if dot then None else scan_decimal cs' m k true nd
      else None
  end.

(** numpy's [rint] on an exact value: round to the nearest integer, ties
    to even. *)
Definition rint (q : Q) : Z :=
  let n := Qnum q in
  let d := Zpos (Qden q) in
  let f := (n / d)%Z in
  match Z.compare (2 * (n mod d)) d with
  | Lt => f
  | Gt => (f + 1)%Z
  | Eq => if Z.even f then f else (f + 1)%Z
  end.

(** *** IEEE-754 binary64 *)

(** A double: a finite value (the rational it denotes) or an infinity.
    NaN is not a value of this type: where pandas produces NaN the model
    has [None]. *)
Inductive f64 := Finite (q : Q) | PosInf | NegInf.

(** [m * 2^u] as a rational. *)
Definition scale (m u : Z) : Q :=
  match u with
  | Z0 => inject_Z m
  | Zpos p => inject_Z (m * Zpos (2 ^ p))
  | Zneg p => Qmake m (2 ^ p)
  end.

Definition pow2q (u : Z) : Q := scale 1 u.

(** [floor (log2 x)] for [x > 0]: [x] lies between [2^(e0-1)] and
    [2^(e0+1)], where [e0] is computed from its numerator and
    denominator. *)
Definition flog2 (x : Q) : Z :=
  let e0 := (Z.log2 (Qnum x) - Z.log2 (Zpos (Qden x)))%Z in
  if Qle_bool (pow2q e0) x then e0 else (e0 - 1)%Z.

(** Rounding of a positive exact value to binary64: a multiple [m * 2^u] of
    the unit in the last place [2^u] of the binade of [x] (at least
    [2^-1074], the subnormal step), [m] rounded to nearest, ties to even;
    [+inf] when the rounded value reaches [2^1024]. *)
Definition fl_pos (x : Q) : f64 :=
  let u := Z.max (flog2 x - 52) (-1074) in
  let m := rint (x / pow2q u) in
  if Qle_bool (pow2q 1024) (scale m u) then PosInf
  else Finite (Qred (scale m u)).

(** Round to nearest binary64, ties to even. *)
Definition fl (x : Q) : f64 :=
  match Qnum x with
  | Z0 => Finite 0
  | Zpos _ => fl_pos x
  | Zneg _ =>
      match fl_pos (- x) with
      | Finite q => Finite (- q)
      | PosInf => NegInf
      | NegInf => PosInf
      end
  end.

(** numpy's [multiply] and [true_divide] of a double by a positive finite
    constant [c] (the code's [100] and [1000]): the exact result, rounded;
    infinities are kept. *)
Definition multiply (x : f64) (c : Q) : f64 :=
  match x with
  | Finite q => fl (q * c)
  | inf => inf
  end.

Definition true_divide (x : f64) (c : Q) : f64 :=
  match x with
  | Finite q => fl (q / c)
  | inf => inf
  end.

(** numpy's [rint] on a double (the integer it returns is a double). *)
Definition np_rint (x : f64) : f64 :=
  match x with
  | Finite q => Finite (inject_Z (rint q))
  | inf => inf
  end.

(** [Series.round(2)], i.e. numpy's [around]: [rint(x * 100) / 100], each
    operation on doubles. *)
Definition round2 (x : f64) : f64 := true_divide (np_rint (multiply x 100)) 100.

(** A double that is not negative: a non-negative finite value or [+inf]. *)
Definition f64_nonneg (x : f64) : Prop :=
  match x with
  | Finite q => 0 <= q
  | PosInf => True
  | NegInf => False
  end.

(** [pd.to_numeric(s, errors='coerce')] on the strings [clean] produces
    (digits and periods only): the double nearest the value of the numeral,
    or [None] (NaN) when the string is empty, has no digit, or has more
    than one period.  (An all-integer column is parsed as int64 first;
    numpy converts it to the same nearest double when it divides.) *)
Definition to_numeric (s : string) : option f64 :=
  match scan_decimal (list_ascii_of_string s) 0 0 false 0 with
  | Some (m, k, S _) => Some (fl (Qmake m (pow10 k)))
  | _ => None
  end.

(** A row of the DataFrame returned by [transform]. *)
Record CleanRow := mkCleanRow {
  Country : string;
  GDP_USD_billions : f64
}.

(** [df_out.dropna(subset=["GDP_USD_billions"])]: [None] is NaN; an
    infinity is not NaN and is kept. *)
Fixpoint dropna (rows : list (string * option f64)) : list CleanRow :=
  match rows with
  | [] => []
  | (c, Some v) :: rows' => mkCleanRow c v :: dropna rows'
  | (_, None) :: rows' => dropna rows'
  end.

Definition transform (df : list RawRow) : list CleanRow :=
  let cleaned := map (fun r => clean (GDP_USD_millions r)) df in
  let gdp_millions := map to_numeric cleaned in
  let gdp_billions :=
    map (option_map (fun m => round2 (true_divide m 1000))) gdp_millions in
  dropna (combine (map raw_Country df) gdp_billions).

(** One raw row converted the way [transform] converts it. *)
Definition convert_row (r : RawRow) : option CleanRow :=
  match to_numeric (clean (GDP_USD_millions r)) with
  | Some m => Some (mkCleanRow (raw_Country r) (round2 (true_divide m 1000)))
  | None => None
  end.

(* ------------------------------------------------------------------ *)
(** ** The run: environment, state and the script's monad *)

(** What the world gives the run: the page [requests.get(url)] returns, if
    the request succeeds (already parsed by BeautifulSoup); whether
    [log_file] and [csv_path] can be opened for writing; whether
    [sqlite3.connect(db_name)] succeeds; the timestamp [log_progress]
    formats. *)
Record Env := mkEnv {
  page : option node;
  log_writable : bool;
  csv_writable : bool;
  db_connectable : bool;
  timestamp : string
}.

Inductive conn_state := ConnOpen | ConnClosed.

(** The stages of the script whose failure is recorded in [raised]. *)
Inductive stage := Extraction | LoadCSV | Connect | LoadDB | Query.

(** What the script prints with [print]. *)
Inductive output :=
| Line (s : string)
| Frame (rows : list CleanRow).

(** [log_lines]: the lines of [log_file] (the trailing newline left out);
    [db_tables]: the tables of [World_Economies.db]; [conn]: the global
    [conn], [None] while unbound; [raised]: ghost record of each stage that
    raised, with its exception. *)
Record St := mkSt {
  log_lines : list string;
  stdout : list output;
  stderr : list string;
  csv_file : option (list CleanRow);
  db_tables : list (string * list CleanRow);
  conn : option conn_state;
  raised : list (stage * exn)
}.

Definition M (A : Type) : Type := Env -> St -> result A * St.

Definition ret {A} (a : A) : M A := fun _ s => (Ok a, s).

Definition raise {A} (e : exn) : M A := fun _ s => (Err e, s).

Definition bind {A B} (m : M A) (k : A -> M B) : M B :=
  fun env s =>
    match m env s with
    | (Ok a, s') => k a env s'
    | (Err e, s') => (Err e, s')
    end.

Notation "x <- m ;; k" := (bind m (fun x => k))
  (at level 61, m at next level, right associativity).
Notation "m ;; k" := (bind m (fun _ => k))
  (at level 61, right associativity).

Definition modify (f : St -> St) : M unit := fun _ s => (Ok tt, f s).

Definition ask : M Env := fun env s => (Ok env, s).

Definition get : M St := fun _ s => (Ok s, s).

Definition lift {A} (r : result A) : M A :=
  match r with
  | Ok a => ret a
  | Err e => raise e
  end.

Definition set_log_lines (l : list string) (s : St) : St :=
  mkSt l (stdout s) (stderr s) (csv_file s) (db_tables s) (conn s) (raised s).
Definition set_stdout (o : list output) (s : St) : St :=
  mkSt (log_lines s) o (stderr s) (csv_file s) (db_tables s) (conn s) (raised s).
Definition set_stderr (l : list string) (s : St) : St :=
  mkSt (log_lines s) (stdout s) l (csv_file s) (db_tables s) (conn s) (raised s).
Definition set_csv_file (f : option (list CleanRow)) (s : St) : St :=
  mkSt (log_lines s) (stdout s) (stderr s) f (db_tables s) (conn s) (raised s).
Definition set_db_tables (t : list (string * list CleanRow)) (s : St) : St :=
  mkSt (log_lines s) (stdout s) (stderr s) (csv_file s) t (conn s) (raised s).
Definition set_conn (c : option conn_state) (s : St) : St :=
  mkSt (log_lines s) (stdout s) (stderr s) (csv_file s) (db_tables s) c (raised s).
Definition set_raised (r : list (stage * exn)) (s : St) : St :=
  mkSt (log_lines s) (stdout s) (stderr s) (csv_file s) (db_tables s) (conn s) r.

(** Python's [try: m except Exception as e: h(e)]. *)
Definition try_except {A} (m : M A) (h : exn -> M A) : M A :=
  fun env s =>
    match m env s with
    | (Ok a, s') => (Ok a, s')
    | (Err e, s') => h e env s'
    end.

(** [try: body except Exception as e: handler(e) finally: fin]: [fin] runs
    on every path; an exception it raises replaces the outcome. *)
Definition try_except_finally (body : M unit) (handler : exn -> M unit)
  (fin : M unit) : M unit :=
  fun env s =>
    let (r, s1) := try_except body handler env s in
    match fin env s1 with
    | (Ok _, s2) => (r, s2)
    | (Err e, s2) => (Err e, s2)
    end.

(** Ghost: run a stage, noting in [raised] the exception it raises. *)
Definition run_stage {A} (st : stage) (m : M A) : M A :=
  try_except m (fun e =>
    modify (fun s => set_raised (app (raised s) [(st, e)]) s);; raise e).

(* ------------------------------------------------------------------ *)
(** ** Logger, fetcher and sink *)

Definition table_name : string := "Countries_by_GDP".

(** [log_progress(inp)]: open [log_file] in append mode (raises when it
    cannot be opened) and write [timestamp + ' : ' + inp]. *)
Definition log_progress (inp : string) : M unit :=
  env <- ask ;;
  if log_writable env
  then modify (fun s =>
         set_log_lines (app (log_lines s) [timestamp env ++ " : " ++ inp]) s)
  else raise OSError.

(** [extract(url, table_attribs)]: [requests.get], then [extract]. *)
Definition extract_io : M (list RawRow) :=
  env <- ask ;;
  match page env with
  | None => raise RequestError
  | Some data => lift (extract data)
  end.

(** [load_to_csv(df, csv_path)]. *)
Definition load_to_csv (df : list CleanRow) : M unit :=
  env <- ask ;;
  if csv_writable env
  then modify (set_csv_file (Some df))
  else raise OSError.

(** [conn = sqlite3.connect(db_name)]. *)
Definition connect : M unit :=
  env <- ask ;;
  if db_connectable env
  then modify (set_conn (Some ConnOpen))
  else raise DatabaseError.

(** [to_sql(name, conn, if_exists='replace')] on the tables of the
    database: the table of that name, if any, is replaced. *)
Definition replace_table (name : string) (df : list CleanRow)
  (tables : list (string * list CleanRow)) : list (string * list CleanRow) :=
  (name, df) :: filter (fun p => negb (String.eqb (fst p) name)) tables.

(** [load_to_db(df, conn, table_name)]. *)
Definition load_to_db (df : list CleanRow) (name : string) : M unit :=
  modify (fun s => set_db_tables (replace_table name df (db_tables s)) s).

(** The queries the script issues: [SELECT * FROM t WHERE c >= v] on the
    [GDP_USD_billions] column. *)
Inductive query := SelectWhereGe (table : string) (threshold : Q).

Definition query_text : string :=
  "SELECT * FROM " ++ table_name ++ " WHERE GDP_USD_billions >= 100".

(** [query_statement] of the script. *)
Definition query_statement : query := SelectWhereGe table_name (inject_Z 100).

(** SQLite's [x >= v] on a REAL column holding the double [x] (stored
    infinities compare as such). *)
Definition f64_geb (x : f64) (v : Q) : bool :=
  match x with
  | Finite q => Qle_bool v q
  | PosInf => true
  | NegInf => false
  end.

(** The rows SQLite returns for a query, in table order; [None] when the
    table does not exist. *)
Definition eval_query (tables : list (string * list CleanRow)) (q : query)
  : option (list CleanRow) :=
  match q with
  | SelectWhereGe t v =>
      match List.find (fun p => String.eqb (fst p) t) tables with
      | Some (_, rows) => Some (filter (fun r => f64_geb (GDP_USD_billions r) v) rows)
      | None => None
      end
  end.

(** [run_query(query_statement, conn)]: print the statement, read it back
    with [pd.read_sql] (which raises when the table is missing) and print
    the resulting frame. *)
Definition run_query (q : query) : M unit :=
  modify (fun s => set_stdout (app (stdout s) [Line query_text]) s);;
  s <- get ;;
  match eval_query (db_tables s) q with
  | Some rows => modify (fun s => set_stdout (app (stdout s) [Frame rows]) s)
  | None => raise DatabaseError
  end.

(** [print(..., file=sys.stderr)]. *)
Definition eprint (msg : string) : M unit :=
  modify (fun s => set_stderr (app (stderr s) [msg]) s).

(** [conn.close()]: a [NameError] while [conn] is unbound. *)
Definition close_conn : M unit :=
  s <- get ;;
  match conn s with
  | None => raise NameError
  | Some _ => modify (set_conn (Some ConnClosed))
  end.

(* ------------------------------------------------------------------ *)
(** ** Orchestration *)

Definition main_body : M unit :=
  log_progress "Preliminaries complete. Initiating ETL process.";;
  df <- run_stage Extraction extract_io ;;
  log_progress "Data extraction complete. Initiating transformation process.";;
  let df := transform df in
  log_progress "Data transformation complete. Initiating loading process.";;
  run_stage LoadCSV (load_to_csv df);;
  log_progress "Data saved to CSV file.";;
  run_stage Connect connect;;
  log_progress "SQL connection initiated.";;
  run_stage LoadDB (load_to_db df table_name);;
  log_progress "Data loaded to database as table. Running the query.";;
  run_stage Query (run_query query_statement);;
  log_progress "Process complete.".

Definition main_handler (e : exn) : M unit :=
  log_progress ("ERROR: " ++ exn_msg e);;
  eprint ("ERROR: " ++ exn_msg e).

Definition main_finally : M unit :=
  try_except close_conn (fun _ => ret tt).

(** The whole script.  [Ok tt]: the process ends normally; [Err e]: [e]
    escapes the module and terminates the process. *)
Definition main : M unit :=
  try_except_finally main_body main_handler main_finally.

(** The state a run starts from: the existing log file and database, the
    global [conn] not yet bound. *)
Definition start (log0 : list string) (csv0 : option (list CleanRow))
  (db0 : list (string * list CleanRow)) : St :=
  mkSt log0 [] [] csv0 db0 None [].

(* ------------------------------------------------------------------ *)
(** ** Auxiliary definitions for the statements *)

Open Scope list_scope.

Fixpoint filter_map {A B} (f : A -> option B) (l : list A) : list B :=
  match l with
  | [] => []
  | x :: l' =>
      match f x with
      | Some y => y :: filter_map f l'
      | None => filter_map f l'
      end
  end.

(** [sub] keeps some elements of [l], in the order they have in [l]. *)
Inductive subseq {A} : list A -> list A -> Prop :=
| subseq_nil : subseq [] []
| subseq_skip x sub l : subseq sub l -> subseq sub (x :: l)
| subseq_keep x sub l : subseq sub l -> subseq (x :: sub) (x :: l).

Definition convertible (r : RawRow) : bool :=
  match convert_row r with Some _ => true | None => false end.

(** What one row of the table body contributes to [extract]'s result when
    its loop iteration does not raise. *)
Definition row_out (row : node) : list RawRow :=
  match extract_row row with
  | Ok (Some r) => [r]
  | _ => []
  end.

(** The selection of rows as the claim on [extract] words it: a row with
    at least one data cell whose first cell contains a hyperlink and whose
    third cell has a digit in its stripped text, taken with the stripped
    text of the first hyperlink of the first cell as country. *)
Definition included_row (row : node) : list RawRow :=
  match find_all "td" row with
  | [] => []
  | c0 :: _ =>
      match find "a" c0, nth_error (find_all "td" row) 2 with
      | Some a, Some c2 =>
          if has_digit (get_text_strip c2)
          then [mkRawRow (get_text_strip a) (get_text_strip c2)]
          else []
      | _, _ => []
      end
  end.

(** The display text of an element with surrounding whitespace trimmed:
    all its text, concatenated, then [strip]ped. *)
Definition display_text (n : node) : string :=
  py_strip (String.concat "" (strings n)).

(** A page shaped like the archived one: two table bodies before the GDP
    table, whose body has a header row, two country rows, an aggregate row
    without a hyperlink and a country row with a dash. *)
Definition sample_doc : node :=
  Elem "html" [
    Elem "tbody" [Elem "tr" [Elem "td" [Text "nav"]]];
    Elem "tbody" [];
    Elem "tbody" [
      Elem "tr" [Elem "th" [Text "Country"]; Elem "th" [Text "GDP"]];
      Elem "tr" [Elem "td" [Text " "; Elem "a" [Text "United States"]];
                 Elem "td" [Text "Americas"];
                 Elem "td" [Text "26,854,599"]];
      Elem "tr" [Elem "td" [Elem "a" [Text "China"]];
                 Elem "td" [Text "Asia"];
                 Elem "td" [Text " 19,373,586 "; Elem "sup" [Text "[n 1]"]]];
      Elem "tr" [Elem "td" [Text "World"]; Elem "td" [];
                 Elem "td" [Text "105,568,776"]];
      Elem "tr" [Elem "td" [Elem "a" [Text "Somewhere"]];
                 Elem "td" [Text "Asia"]; Elem "td" [Text "-"]]]].

(* ------------------------------------------------------------------ *)
(** ** Lemmas on transform *)

Lemma transform_nil : transform [] = [].
Proof. reflexivity. Qed.

Lemma transform_cons r df :
  transform (r :: df) =
  match convert_row r with
  | Some c => c :: transform df
  | None => transform df
  end.
Proof.
  unfold transform, convert_row; simpl.
  destruct (to_numeric (clean (GDP_USD_millions r))); reflexivity.
Qed.

Lemma transform_filter_map df : transform df = filter_map convert_row df.
Proof.
  induction df as [|r df IH]; [reflexivity|].
  rewrite transform_cons; simpl.
  destruct (convert_row r); now rewrite IH.
Qed.

Lemma transform_app l1 l2 : transform (l1 ++ l2) = transform l1 ++ transform l2.
Proof.
  induction l1 as [|r l1 IH]; [reflexivity|].
  simpl app; rewrite !transform_cons.
  destruct (convert_row r); now rewrite IH.
Qed.

Lemma transform_in c df :
  In c (transform df) -> exists r, In r df /\ convert_row r = Some c.
Proof.
  induction df as [|r df IH]; simpl; [tauto|].
  rewrite transform_cons.
  destruct (convert_row r) as [c'|] eqn:E.
  - intros [<-|H]; [now exists r; auto|].
    destruct (IH H) as (r' & ? & ?); exists r'; auto.
  - intros H; destruct (IH H) as (r' & ? & ?); exists r'; auto.
Qed.

Lemma to_numeric_empty : to_numeric "" = None.
Proof. reflexivity. Qed.

(** The scanner only ever reads digits into a non-negative mantissa, and
    it succeeds with a digit count [S _] only when a digit was read. *)
Lemma scan_decimal_nonneg cs m k dot nd m' k' nd' :
  (0 <= m)%Z -> scan_decimal cs m k dot nd = Some (m', k', nd') -> (0 <= m')%Z.
Proof.
  revert m k dot nd.
  induction cs as [|c cs IH]; simpl; intros m k dot nd Hm H.
  - congruence.
  - destruct (is_digit c).
    + eapply IH; [|exact H]. unfold digit_value; lia.
    + destruct (Ascii.eqb c "."); [destruct dot|]; try discriminate.
      eapply IH; eauto.
Qed.

Lemma scan_decimal_digit cs m k dot nd m' k' nd' :
  scan_decimal cs m k dot nd = Some (m', k', S nd') ->
  nd <> O \/ existsb is_digit cs = true.
Proof.
  revert m k dot nd.
  induction cs as [|c cs IH]; simpl; intros m k dot nd H.
  - left. congruence.
  - destruct (is_digit c) eqn:Ed; [now right|].
    destruct (Ascii.eqb c "."); [destruct dot|]; try discriminate.
    destruct (IH _ _ _ _ H) as [Hn|Hn]; [now left|now right].
Qed.

Lemma to_numeric_some_digit s q :
  to_numeric s = Some q -> existsb is_digit (list_ascii_of_string s) = true.
Proof.
  unfold to_numeric.
  destruct (scan_decimal _ 0 0 false 0) as [[[m k] [|nd]]|] eqn:E;
    try discriminate.
  intros _. destruct (scan_decimal_digit _ _ _ _ _ _ _ _ E) as [H|H];
    [congruence|exact H].
Qed.

Lemma scale_nonneg m u : (0 <= m)%Z -> 0 <= scale m u.
Proof.
  intros Hm. unfold scale, Qle. destruct u; simpl; lia.
Qed.

Lemma pow2q_pos u : 0 < pow2q u.
Proof.
  unfold pow2q, scale, Qlt. destruct u; simpl; lia.
Qed.

Lemma rint_nonneg q : 0 <= q -> (0 <= rint q)%Z.
Proof.
  unfold Qle, rint; simpl; intros H.
  assert (0 <= Qnum q / Zpos (Qden q))%Z by (apply Z.div_pos; lia).
  destruct (Z.compare _ _); [destruct (Z.even _)| |]; lia.
Qed.

Lemma fl_nonneg x : 0 <= x -> f64_nonneg (fl x).
Proof.
  intros Hx. unfold fl.
  destruct (Qnum x) eqn:En.
  - simpl. apply Qle_refl.
  - unfold fl_pos.
    set (u := Z.max (flog2 x - 52) (-1074)).
    assert (Hm : (0 <= rint (x / pow2q u))%Z).
    { apply rint_nonneg, Qle_shift_div_l; [apply pow2q_pos|].
      now rewrite Qmult_0_l. }
    destruct (Qle_bool _ _); simpl; [exact I|].
    rewrite Qred_correct. now apply scale_nonneg.
  - exfalso. unfold Qle in Hx; simpl in Hx. lia.
Qed.

Lemma to_numeric_nonneg s q : to_numeric s = Some q -> f64_nonneg q.
Proof.
  unfold to_numeric.
  destruct (scan_decimal _ 0 0 false 0) as [[[m k] [|nd]]|] eqn:E;
    try discriminate.
  intros Hq; injection Hq as <-.
  apply scan_decimal_nonneg in E; [|lia].
  apply fl_nonneg. unfold Qle; simpl; lia.
Qed.

Lemma multiply_nonneg x c : 0 <= c -> f64_nonneg x -> f64_nonneg (multiply x c).
Proof.
  intros Hc. destruct x as [q| |]; simpl; try tauto.
  intros Hq. apply fl_nonneg. now apply Qmult_le_0_compat.
Qed.

Lemma true_divide_nonneg x c : 0 < c -> f64_nonneg x -> f64_nonneg (true_divide x c).
Proof.
  intros Hc. destruct x as [q| |]; simpl; try tauto.
  intros Hq. apply fl_nonneg, Qle_shift_div_l; [exact Hc|].
  now rewrite Qmult_0_l.
Qed.

Lemma np_rint_nonneg x : f64_nonneg x -> f64_nonneg (np_rint x).
Proof.
  destruct x as [q| |]; simpl; try tauto.
  intros Hq. pose proof (rint_nonneg q Hq). unfold Qle; simpl; lia.
Qed.

Lemma round2_nonneg x : f64_nonneg x -> f64_nonneg (round2 x).
Proof.
  intros H. unfold round2.
  apply true_divide_nonneg; [reflexivity|].
  apply np_rint_nonneg, multiply_nonneg; [discriminate|exact H].
Qed.

Lemma convert_row_nonneg r c :
  convert_row r = Some c -> f64_nonneg (GDP_USD_billions c).
Proof.
  unfold convert_row.
  destruct (to_numeric _) as [m|] eqn:E; [|discriminate].
  intros Hc; injection Hc as <-; simpl.
  apply round2_nonneg, true_divide_nonneg; [reflexivity|].
  exact (to_numeric_nonneg _ _ E).
Qed.

Lemma clean_digit s :
  existsb is_digit (list_ascii_of_string (clean s)) = true -> has_digit s = true.
Proof.
  unfold clean, has_digit. rewrite list_ascii_of_string_of_list_ascii.
  rewrite !existsb_exists. intros (c & Hin & Hd).
  apply filter_In in Hin. exists c; tauto.
Qed.

Lemma convert_row_digit r c :
  convert_row r = Some c -> has_digit (GDP_USD_millions r) = true.
Proof.
  unfold convert_row.
  destruct (to_numeric _) as [m|] eqn:E; [|discriminate].
  intros _. now apply clean_digit, (to_numeric_some_digit _ m).
Qed.

(** The conversion rule of [transform]: every output row comes from an
    input row whose digits-and-periods string parses to the double [m],
    with value [round2 (m / 1000)] and the same country. *)
Lemma transform_rule c df :
  In c (transform df) ->
  exists r m, In r df /\ to_numeric (clean (GDP_USD_millions r)) = Some m /\
    c = mkCleanRow (raw_Country r) (round2 (true_divide m 1000)).
Proof.
  intros H. destruct (transform_in _ _ H) as (r & Hr & Hc).
  unfold convert_row in Hc.
  destruct (to_numeric _) as [m|] eqn:E; [|discriminate].
  injection Hc as <-. now exists r, m.
Qed.

(* ------------------------------------------------------------------ *)
(** ** Claims on transform *)

(** C1: "1,234" becomes 1.23 as the claim says, but "25,678[5]" does not
    become 25.68: the footnote digit 5 survives the cleaning regex, the
    string parsed is "256785", and the row gets 256.79 (the double nearest
    256.785, times 100, is just above 25678.5, which [rint] rounds up). *)
Theorem C1_footnote_digit_kept :
  clean "25,678[5]" = "256785" /\
  transform [mkRawRow "A" "1,234"; mkRawRow "B" "25,678[5]"] =
    [mkCleanRow "A" (fl (Qmake 123 100)); mkCleanRow "B" (fl (Qmake 25679 100))] /\
  fl (Qmake 25679 100) <> fl (Qmake 2568 100).
Proof.
  split; [reflexivity|]. split; [vm_compute; reflexivity|].
  vm_compute. discriminate.
Qed.

(** C3: a raw row whose cleaned GDP string is empty or does not parse
    contributes nothing to the output of [transform], wherever it stands;
    [transform] is a total function, it raises on no input. *)
Theorem C3_unconvertible_dropped l1 r l2 :
  clean (GDP_USD_millions r) = "" \/
  to_numeric (clean (GDP_USD_millions r)) = None ->
  transform (l1 ++ r :: l2) = transform l1 ++ transform l2.
Proof.
  intros H.
  assert (Hn : to_numeric (clean (GDP_USD_millions r)) = None).
  { destruct H as [H|H]; [rewrite H; reflexivity|exact H]. }
  rewrite transform_app, transform_cons.
  unfold convert_row; now rewrite Hn.
Qed.

Lemma C3_unconvertible_dropped_witness :
  (clean "-" = "" \/ to_numeric (clean "-") = None) /\
  transform ([mkRawRow "A" "1,234"] ++ mkRawRow "B" "-" :: [mkRawRow "C" "1.2.3"])
  = transform [mkRawRow "A" "1,234"] ++ transform [mkRawRow "C" "1.2.3"].
Proof.
  split; [left; reflexivity|].
  apply (C3_unconvertible_dropped [mkRawRow "A" "1,234"] (mkRawRow "B" "-")
           [mkRawRow "C" "1.2.3"]).
  left; reflexivity.
Defined.

(** Every row of the table the pipeline produces comes from an extracted
    row of the same country whose GDP text has a digit, and its GDP in
    billions is not negative (a non-negative double or [+inf]). *)
Lemma clean_row_invariant doc t c :
  extract doc = Ok t -> In c (transform t) ->
  exists r, In r t /\ raw_Country r = Country c /\
    has_digit (GDP_USD_millions r) = true /\ f64_nonneg (GDP_USD_billions c).
Proof.
  intros _ H. destruct (transform_in _ _ H) as (r & Hr & Hc).
  exists r. split; [exact Hr|]. split.
  - unfold convert_row in Hc. destruct (to_numeric _); [|discriminate].
    now injection Hc as <-.
  - split; [exact (convert_row_digit _ _ Hc)|exact (convert_row_nonneg _ _ Hc)].
Qed.

(* ------------------------------------------------------------------ *)
(** ** Lemmas on extract *)

Lemma extract_rows_ok rows df t :
  extract_rows rows df = Ok t ->
  t = df ++ flat_map row_out rows /\
  (forall row, In row rows -> exists o, extract_row row = Ok o).
Proof.
  revert df. induction rows as [|row rows IH]; simpl; intros df H.
  - injection H as <-. split; [now rewrite app_nil_r|tauto].
  - unfold row_out at 1.
    destruct (extract_row row) as [[r|]|e] eqn:E; [| |discriminate].
    + destruct (IH _ H) as [-> Hall]. split.
      { rewrite <- app_assoc. reflexivity. }
      intros row' [<-|Hin]; [rewrite E; now eexists|auto].
    + destruct (IH _ H) as [-> Hall]. split; [reflexivity|].
      intros row' [<-|Hin]; [rewrite E; now eexists|auto].
Qed.

Lemma extract_ok doc t :
  extract doc = Ok t ->
  exists tb, nth_error (find_all "tbody" doc) 2 = Some tb /\
    t = flat_map row_out (find_all "tr" tb) /\
    (forall row, In row (find_all "tr" tb) -> exists o, extract_row row = Ok o).
Proof.
  unfold extract, py_index.
  destruct (nth_error (find_all "tbody" doc) 2) as [tb|]; [|discriminate].
  intros H. exists tb. split; [reflexivity|].
  exact (extract_rows_ok _ _ _ H).
Qed.

Lemma extract_row_ok_long row c0 a o :
  extract_row row = Ok o ->
  hd_error (find_all "td" row) = Some c0 -> find "a" c0 = Some a ->
  (3 <= length (find_all "td" row))%nat.
Proof.
  unfold extract_row, py_index.
  destruct (find_all "td" row) as [|x l] eqn:Ecol; simpl; [discriminate|].
  intros H Hc0; injection Hc0 as ->. intros Ha. rewrite Ha in H.
  destruct l as [|y [|z l']]; simpl in *; try discriminate. lia.
Qed.

Lemma row_out_included row o :
  extract_row row = Ok o -> row_out row = included_row row.
Proof.
  unfold row_out, included_row, extract_row, py_index.
  destruct (find_all "td" row) as [|c0 l]; [reflexivity|].
  destruct (find "a" c0) as [a|]; [|reflexivity].
  destruct (nth_error (c0 :: l) 2) as [c2|]; [|discriminate].
  destruct (has_digit (get_text_strip c2)); reflexivity.
Qed.

Lemma flat_map_ext_in {A B} (f g : A -> list B) l :
  (forall x, In x l -> f x = g x) -> flat_map f l = flat_map g l.
Proof.
  induction l as [|x l IH]; simpl; intros H; [reflexivity|].
  rewrite (H x (or_introl eq_refl)), IH; auto.
Qed.

Lemma flat_map_row_out rows :
  exists sel, subseq sel rows /\
    Forall2 (fun row r => extract_row row = Ok (Some r)) sel
      (flat_map row_out rows).
Proof.
  induction rows as [|row rows (sel & Hs & Hf)]; simpl.
  - exists []; split; constructor.
  - unfold row_out at 1.
    destruct (extract_row row) as [[r|]|e] eqn:E.
    + exists (row :: sel). split; [now constructor|]. simpl; now constructor.
    + exists sel. split; [now constructor|exact Hf].
    + exists sel. split; [now constructor|exact Hf].
Qed.

Lemma transform_filter_convertible t :
  Forall2 (fun r c => convert_row r = Some c) (filter convertible t)
    (transform t).
Proof.
  induction t as [|r t IH]; simpl; [constructor|].
  rewrite transform_cons. unfold convertible at 1.
  destruct (convert_row r) eqn:E; [now constructor|exact IH].
Qed.

(* ------------------------------------------------------------------ *)
(** ** Claims on extract *)

(** A table body whose only row has a hyperlinked first cell "X" followed
    by the text "Y", and a third cell "5". *)
Definition c2_first_cell : node :=
  Elem "td" [Elem "a" [Text "X"]; Text "Y"].

Definition c2_doc : node :=
  Elem "html" [Elem "tbody" []; Elem "tbody" [];
    Elem "tbody" [Elem "tr" [c2_first_cell; Elem "td" []; Elem "td" [Text "5"]]]].

(** C2: the country [extract] records is the text of the first hyperlink
    inside the first cell, not the display text of the cell: here the cell
    reads "XY" and the row is recorded with country "X". *)
Lemma C2_country_is_link_text :
  extract c2_doc = Ok [mkRawRow "X" "5"] /\
  display_text c2_first_cell = "XY" /\ "X" <> "XY".
Proof.
  split; [reflexivity|]. split; [reflexivity|]. discriminate.
Qed.

(** C2 (amended): when [extract] returns a table, every row of the third
    table body whose first data cell holds a hyperlink has at least three
    data cells, and the table is, in document order, exactly the rows with
    a data cell, a hyperlink in the first one and a digit in the stripped
    text of the third one, each with the stripped text of that hyperlink
    as country and the stripped text of the third cell as GDP text. *)
Theorem C2_extract_selects doc t :
  extract doc = Ok t ->
  exists tb, nth_error (find_all "tbody" doc) 2 = Some tb /\
    (forall row c0 a, In row (find_all "tr" tb) ->
       hd_error (find_all "td" row) = Some c0 -> find "a" c0 = Some a ->
       (3 <= length (find_all "td" row))%nat) /\
    t = flat_map included_row (find_all "tr" tb).
Proof.
  intros H. destruct (extract_ok _ _ H) as (tb & Htb & -> & Hall).
  exists tb. split; [exact Htb|]. split.
  - intros row c0 a Hin. destruct (Hall row Hin) as [o Ho].
    exact (extract_row_ok_long row c0 a o Ho).
  - apply flat_map_ext_in. intros row Hin.
    destruct (Hall row Hin) as [o Ho]. exact (row_out_included _ _ Ho).
Qed.

Lemma C2_extract_selects_witness :
  extract sample_doc =
    Ok [mkRawRow "United States" "26,854,599"; mkRawRow "China" "19,373,586[n 1]"] /\
  exists tb, nth_error (find_all "tbody" sample_doc) 2 = Some tb /\
    (forall row c0 a, In row (find_all "tr" tb) ->
       hd_error (find_all "td" row) = Some c0 -> find "a" c0 = Some a ->
       (3 <= length (find_all "td" row))%nat) /\
    [mkRawRow "United States" "26,854,599"; mkRawRow "China" "19,373,586[n 1]"]
    = flat_map included_row (find_all "tr" tb).
Proof.
  split; [reflexivity|].
  apply (C2_extract_selects sample_doc). reflexivity.
Defined.

(** C6: the extracted table lists, in document order, the rows of the third
    table body that [extract] keeps (a subsequence of them, each converted
    by the loop body), and the table [transform] returns is the convertible
    extracted rows in the same order, each converted. *)
Theorem C6_order_preserved doc t :
  extract doc = Ok t ->
  exists tb sel,
    nth_error (find_all "tbody" doc) 2 = Some tb /\
    subseq sel (find_all "tr" tb) /\
    Forall2 (fun row r => extract_row row = Ok (Some r)) sel t /\
    Forall2 (fun r c => convert_row r = Some c) (filter convertible t)
      (transform t).
Proof.
  intros H. destruct (extract_ok _ _ H) as (tb & Htb & Ht & _).
  destruct (flat_map_row_out (find_all "tr" tb)) as (sel & Hs & Hf).
  exists tb, sel. rewrite Ht.
  split; [exact Htb|]. split; [exact Hs|]. split; [exact Hf|].
  apply transform_filter_convertible.
Qed.

Lemma C6_order_preserved_witness :
  extract sample_doc =
    Ok [mkRawRow "United States" "26,854,599"; mkRawRow "China" "19,373,586[n 1]"] /\
  exists tb sel,
    nth_error (find_all "tbody" sample_doc) 2 = Some tb /\
    subseq sel (find_all "tr" tb) /\
    Forall2 (fun row r => extract_row row = Ok (Some r)) sel
      [mkRawRow "United States" "26,854,599"; mkRawRow "China" "19,373,586[n 1]"] /\
    Forall2 (fun r c => convert_row r = Some c)
      (filter convertible [mkRawRow "United States" "26,854,599";
                           mkRawRow "China" "19,373,586[n 1]"])
      (transform [mkRawRow "United States" "26,854,599";
                  mkRawRow "China" "19,373,586[n 1]"]).
Proof.
  split; [reflexivity|].
  apply (C6_order_preserved sample_doc). reflexivity.
Defined.

(** A third table body with a row whose only data cell is a link. *)
Definition c10_doc : node :=
  Elem "html" [Elem "tbody" []; Elem "tbody" [];
    Elem "tbody" [Elem "tr" [Elem "td" [Elem "a" [Text "X"]]]]].

(** C10: some page whose third table body exists has a row with a
    hyperlinked first cell and fewer than three data cells, and [extract]
    raises [IndexError] on it (at [col[2]]) instead of skipping the row. *)
Theorem C10_short_row_raises :
  exists doc tb row c0,
    nth_error (find_all "tbody" doc) 2 = Some tb /\
    In row (find_all "tr" tb) /\
    find_all "td" row = [c0] /\ find "a" c0 <> None /\
    extract doc = Err IndexError.
Proof.
  exists c10_doc.
  eexists. eexists. eexists.
  split; [reflexivity|]. split; [simpl; left; reflexivity|].
  split; [reflexivity|]. split; [discriminate|reflexivity].
Qed.

Fixpoint zeros (n : nat) : string :=
  match n with
  | O => ""
  | S n' => String "0" (zeros n')
  end.

(** A GDP text of 400 digits: [10^399] millions. *)
Definition c5_gdp : string := "1" ++ zeros 399.



(* ------------------------------------------------------------------ *)
(** ** Claims on the run *)

Ltac unfold_run :=
  unfold main, try_except_finally, main_body, main_handler, main_finally,
    run_stage, log_progress, extract_io, eprint, close_conn, load_to_csv,
    connect, load_to_db, run_query, try_except, bind, ask, get, modify, lift,
    ret, raise, start, set_log_lines, set_stdout, set_stderr, set_csv_file,
    set_db_tables, set_conn, set_raised;
  cbv beta iota zeta delta [page log_writable csv_writable db_connectable
    timestamp log_lines stdout stderr csv_file db_tables conn raised];
  cbn -[extract transform].

Definition gdp_rows_abc : list CleanRow :=
  [mkCleanRow "A" (Finite (inject_Z 150)); mkCleanRow "B" (fl (Qmake 999 10));
   mkCleanRow "C" (Finite (inject_Z 100))].

(** C7: once [load_to_db] has stored A = 150.0, B = 99.9 and C = 100.0,
    whatever the database held before, [query_statement] selects exactly A
    and C, and [run_query] prints the statement and that frame. *)
Theorem C7_query_at_least_100 env s :
  eval_query (db_tables (snd (load_to_db gdp_rows_abc table_name env s)))
    query_statement =
    Some [mkCleanRow "A" (Finite (inject_Z 150));
          mkCleanRow "C" (Finite (inject_Z 100))] /\
  stdout (snd ((load_to_db gdp_rows_abc table_name;;
                run_query query_statement) env s)) =
    stdout s ++ [Line query_text;
                 Frame [mkCleanRow "A" (Finite (inject_Z 150));
                        mkCleanRow "C" (Finite (inject_Z 100))]].
Proof.
  destruct s as [l o er c d cn r].
  assert (E : eval_query (replace_table table_name gdp_rows_abc d)
                query_statement =
              Some [mkCleanRow "A" (Finite (inject_Z 150));
                    mkCleanRow "C" (Finite (inject_Z 100))])
    by (vm_compute; reflexivity).
  unfold load_to_db, run_query, bind, modify, get.
  cbn [fst snd log_lines stdout stderr csv_file db_tables conn raised
         set_db_tables set_stdout].
  split; [exact E|].
  rewrite E.
  cbn [fst snd log_lines stdout stderr csv_file db_tables conn raised
         set_db_tables set_stdout].
  rewrite <- app_assoc. reflexivity.
Qed.

(** C4: when the page has fewer than three table bodies, [extract] raises
    [IndexError]; it is not caught before the top-level handler, which logs
    and prints it, and the run then ends normally.  (The log file being
    writable is what lets the run reach the extraction at all.) *)
Theorem C4_missing_tbody_raises env doc log0 csv0 db0 :
  page env = Some doc -> (length (find_all "tbody" doc) < 3)%nat ->
  log_writable env = true ->
  extract doc = Err IndexError /\
  main env (start log0 csv0 db0) =
    (Ok tt,
     mkSt (log0 ++ [(timestamp env ++ " : " ++ "Preliminaries complete. Initiating ETL process.")%string;
                    (timestamp env ++ " : " ++ "ERROR: list index out of range")%string])
          [] ["ERROR: list index out of range"] csv0 db0 None
          [(Extraction, IndexError)]).
Proof.
  intros Hp Hlen Hw.
  assert (He : extract doc = Err IndexError).
  { unfold extract, py_index.
    rewrite (proj2 (nth_error_None _ _)); [reflexivity|lia]. }
  split; [exact He|].
  destruct env as [pg lw cw dc ts]; simpl in *; subst.
  unfold_run. rewrite He. cbn.
  now rewrite <- app_assoc.
Qed.

Lemma C4_missing_tbody_raises_witness :
  extract c2_doc <> Err IndexError /\
  extract (Elem "html" [Elem "tbody" []]) = Err IndexError /\
  main (mkEnv (Some (Elem "html" [Elem "tbody" []])) true true true "T")
       (start [] None []) =
    (Ok tt,
     mkSt ([] ++ [("T" ++ " : " ++ "Preliminaries complete. Initiating ETL process.")%string;
                  ("T" ++ " : " ++ "ERROR: list index out of range")%string])
          [] ["ERROR: list index out of range"] None [] None
          [(Extraction, IndexError)]).
Proof.
  split; [discriminate|].
  apply (C4_missing_tbody_raises
           (mkEnv (Some (Elem "html" [Elem "tbody" []])) true true true "T")
           (Elem "html" [Elem "tbody" []]) [] None []);
    simpl; [reflexivity|lia|reflexivity].
Defined.

(** C8: in a run where the extraction stage raised [e], the top-level
    handler appended the log line [timestamp : ERROR: e], the global
    [conn] was never bound, and the [conn.close()] of the [finally] clause
    (a [NameError] there) was swallowed: the run ends normally. *)
Theorem C8_extraction_error_logged env log0 csv0 db0 r s e :
  main env (start log0 csv0 db0) = (r, s) ->
  In (Extraction, e) (raised s) ->
  r = Ok tt /\
  In (timestamp env ++ " : " ++ ("ERROR: " ++ exn_msg e))%string (log_lines s) /\
  conn s = None.
Proof.
  destruct env as [pg [|] cw dc ts]; simpl.
  - destruct pg as [doc|].
    + destruct (extract doc) as [t|e'] eqn:Ex.
      * unfold_run. rewrite Ex. cbn.
        destruct cw, dc; cbn; intros Hm; injection Hm as <- <-; simpl;
          intros Hin; repeat (destruct Hin as [Hin|Hin]; [discriminate|]);
          contradiction.
      * unfold_run. rewrite Ex. cbn.
        intros Hm; injection Hm as <- <-; simpl.
        intros [Hin|[]]; injection Hin as <-.
        split; [reflexivity|]. split; [|reflexivity].
        apply in_or_app; right; simpl; auto.
    + unfold_run. intros Hm; injection Hm as <- <-; simpl.
      intros [Hin|[]]; injection Hin as <-.
      split; [reflexivity|]. split; [|reflexivity].
      apply in_or_app; right; simpl; auto.
  - unfold_run. intros Hm; injection Hm as <- <-; simpl; contradiction.
Qed.

Definition c8_env : Env := mkEnv None true true true "T".

Definition c8_final : St :=
  mkSt ["T : Preliminaries complete. Initiating ETL process.";
        "T : ERROR: connection error"]%string
       [] ["ERROR: connection error"]%string None [] None
       [(Extraction, RequestError)].

Lemma C8_extraction_error_logged_witness :
  main c8_env (start [] None []) = (Ok tt, c8_final) /\
  In (Extraction, RequestError) (raised c8_final) /\
  (Ok tt = Ok tt /\
   In (timestamp c8_env ++ " : " ++ ("ERROR: " ++ exn_msg RequestError))%string
      (log_lines c8_final) /\
   conn c8_final = None).
Proof.
  split; [reflexivity|]. split; [simpl; auto|].
  apply (C8_extraction_error_logged c8_env [] None [] (Ok tt) c8_final
           RequestError).
  - reflexivity.
  - simpl; auto.
Defined.

Definition c9_env : Env := mkEnv (Some sample_doc) false true true "T".

(** C9: with the log file not writable, the very first [log_progress]
    raises [OSError]; the top-level handler calls [log_progress] again,
    which raises again, and that exception escapes the script: the run is
    aborted with nothing fetched, logged, written or printed. *)
Lemma C9_unwritable_log_aborts :
  main c9_env (start [] None []) = (Err OSError, start [] None []).
Proof. reflexivity. Qed.

(** C9 (amended): [log_progress] does not catch a failure of its own write:
    when the log file cannot be appended to, every call raises [OSError];
    the first call, inside the main block, is caught by the top-level
    handler, whose own call raises again, so the exception terminates the
    run before any stage has run or changed anything. *)
Theorem C9_log_failure_escapes env log0 csv0 db0 :
  log_writable env = false ->
  (forall msg s, log_progress msg env s = (Err OSError, s)) /\
  main env (start log0 csv0 db0) = (Err OSError, start log0 csv0 db0).
Proof.
  destruct env as [pg lw cw dc ts]; simpl; intros ->.
  split.
  - intros msg s. reflexivity.
  - unfold_run. reflexivity.
Qed.

Lemma C9_log_failure_escapes_witness :
  log_writable c9_env = false /\
  (forall msg s, log_progress msg c9_env s = (Err OSError, s)) /\
  main c9_env (start [] None []) = (Err OSError, start [] None []).
Proof.
  split; [reflexivity|].
  apply (C9_log_failure_escapes c9_env [] None []). reflexivity.
Defined.

(* ------------------------------------------------------------------ *)
(** ** Further properties of the run *)

Definition log_line (env : Env) (msg : string) : string :=
  (timestamp env ++ " : " ++ msg)%string.

Ltac case_run env :=
  destruct env as [pg [|] cw dc ts];
  [ destruct pg as [doc|];
    [ let Ex := fresh "Ex" in
      destruct (extract doc) as [t|e'] eqn:Ex;
      [ destruct cw, dc; unfold_run; rewrite Ex; cbn
      | unfold_run; rewrite Ex; cbn ]
    | unfold_run ]
  | unfold_run ].

(** The only exception that escapes the script is the [OSError] of an
    unwritable log file: every other failure is caught by the top-level
    handler, and the run ends normally whenever the log can be written. *)
Theorem main_only_log_failure_escapes env log0 csv0 db0 r s :
  main env (start log0 csv0 db0) = (r, s) ->
  r = Ok tt \/ (r = Err OSError /\ log_writable env = false).
Proof.
  case_run env; intros Hm; injection Hm as <- _; auto.
Qed.

Lemma main_only_log_failure_escapes_witness :
  main c9_env (start [] None []) = (Err OSError, start [] None []) /\
  ((Err OSError : result unit) = Ok tt \/
   ((Err OSError : result unit) = Err OSError /\ log_writable c9_env = false)).
Proof.
  split; [reflexivity|].
  apply (main_only_log_failure_escapes c9_env [] None [] _ (start [] None [])).
  reflexivity.
Defined.

(** The connection is never left open: whatever happens, at the end of the
    run the global [conn] is unbound or closed. *)
Theorem main_conn_not_left_open env log0 csv0 db0 r s :
  main env (start log0 csv0 db0) = (r, s) -> conn s <> Some ConnOpen.
Proof.
  case_run env; intros Hm; injection Hm as _ <-; simpl; discriminate.
Qed.

Lemma main_conn_not_left_open_witness :
  main c8_env (start [] None []) = (Ok tt, c8_final) /\
  conn c8_final <> Some ConnOpen.
Proof.
  split; [reflexivity|].
  apply (main_conn_not_left_open c8_env [] None [] (Ok tt)). reflexivity.
Defined.

(** When the CSV file cannot be written, the run stops at [load_to_csv]:
    the error is logged and printed to stderr, the database is left as it
    was, no connection is ever opened and the run ends normally. *)
Theorem main_csv_failure env doc t log0 csv0 db0 :
  page env = Some doc -> extract doc = Ok t ->
  log_writable env = true -> csv_writable env = false ->
  main env (start log0 csv0 db0) =
    (Ok tt,
     mkSt (log0 ++ map (log_line env)
             ["Preliminaries complete. Initiating ETL process.";
              "Data extraction complete. Initiating transformation process.";
              "Data transformation complete. Initiating loading process.";
              "ERROR: permission denied"])
          [] ["ERROR: permission denied"] csv0 db0 None [(LoadCSV, OSError)]).
Proof.
  destruct env as [pg lw cw dc ts]; simpl; intros -> Ex -> ->.
  unfold_run. rewrite Ex. cbn.
  now rewrite <- !app_assoc.
Qed.

Lemma main_csv_failure_witness :
  main (mkEnv (Some sample_doc) true false true "T") (start [] None []) =
    (Ok tt,
     mkSt ([] ++ map (log_line (mkEnv (Some sample_doc) true false true "T"))
             ["Preliminaries complete. Initiating ETL process.";
              "Data extraction complete. Initiating transformation process.";
              "Data transformation complete. Initiating loading process.";
              "ERROR: permission denied"])
          [] ["ERROR: permission denied"] None [] None [(LoadCSV, OSError)]).
Proof.
  apply (main_csv_failure _ sample_doc
           [mkRawRow "United States" "26,854,599";
            mkRawRow "China" "19,373,586[n 1]"]); reflexivity.
Defined.

(** When the database cannot be opened, the CSV file has already been
    written with [transform t], the database is left as it was, the error
    is logged and printed, the unbound [conn] is not closed (its
    [NameError] is swallowed) and the run ends normally. *)
Theorem main_connect_failure env doc t log0 csv0 db0 :
  page env = Some doc -> extract doc = Ok t ->
  log_writable env = true -> csv_writable env = true ->
  db_connectable env = false ->
  main env (start log0 csv0 db0) =
    (Ok tt,
     mkSt (log0 ++ map (log_line env)
             ["Preliminaries complete. Initiating ETL process.";
              "Data extraction complete. Initiating transformation process.";
              "Data transformation complete. Initiating loading process.";
              "Data saved to CSV file.";
              "ERROR: unable to open database file"])
          [] ["ERROR: unable to open database file"] (Some (transform t)) db0
          None [(Connect, DatabaseError)]).
Proof.
  destruct env as [pg lw cw dc ts]; simpl; intros -> Ex -> -> ->.
  unfold_run. rewrite Ex. cbn.
  now rewrite <- !app_assoc.
Qed.

Lemma main_connect_failure_witness :
  main (mkEnv (Some sample_doc) true true false "T") (start [] None []) =
    (Ok tt,
     mkSt ([] ++ map (log_line (mkEnv (Some sample_doc) true true false "T"))
             ["Preliminaries complete. Initiating ETL process.";
              "Data extraction complete. Initiating transformation process.";
              "Data transformation complete. Initiating loading process.";
              "Data saved to CSV file.";
              "ERROR: unable to open database file"])
          [] ["ERROR: unable to open database file"]
          (Some (transform [mkRawRow "United States" "26,854,599";
                            mkRawRow "China" "19,373,586[n 1]"])) []
          None [(Connect, DatabaseError)]).
Proof.
  apply (main_connect_failure _ sample_doc); reflexivity.
Defined.

(* ------------------------------------------------------------------ *)
(** ** Further properties of extract and transform *)

Lemma extract_rows_no_error rows df :
  (forall row, In row rows -> forall e, extract_row row <> Err e) ->
  extract_rows rows df = Ok (df ++ flat_map row_out rows).
Proof.
  revert df. induction rows as [|row rows IH]; simpl; intros df H.
  - now rewrite app_nil_r.
  - unfold row_out at 1.
    destruct (extract_row row) as [[r|]|e] eqn:E.
    + rewrite IH; [now rewrite <- app_assoc|auto].
    + apply IH; auto.
    + exfalso. exact (H row (or_introl eq_refl) e E).
Qed.

Lemma extract_row_long_no_error row :
  (forall c0 a, hd_error (find_all "td" row) = Some c0 -> find "a" c0 = Some a ->
     (3 <= length (find_all "td" row))%nat) ->
  forall e, extract_row row <> Err e.
Proof.
  unfold extract_row, py_index. intros H e.
  destruct (find_all "td" row) as [|c0 l] eqn:Ecol; [discriminate|].
  destruct (find "a" c0) as [a|] eqn:Ea; [|discriminate].
  specialize (H c0 a eq_refl Ea). simpl in H.
  destruct l as [|y [|z l']]; simpl in H; try lia.
  simpl. destruct (has_digit _); discriminate.
Qed.

(** [extract] does not raise as soon as the third table body exists and
    every row in it whose first data cell holds a hyperlink has at least
    three data cells; it then returns the selected rows in order. *)
Theorem extract_succeeds doc tb :
  nth_error (find_all "tbody" doc) 2 = Some tb ->
  (forall row c0 a, In row (find_all "tr" tb) ->
     hd_error (find_all "td" row) = Some c0 -> find "a" c0 = Some a ->
     (3 <= length (find_all "td" row))%nat) ->
  extract doc = Ok (flat_map included_row (find_all "tr" tb)).
Proof.
  intros Htb Hlong. unfold extract, py_index. rewrite Htb.
  rewrite extract_rows_no_error.
  - simpl. f_equal. apply flat_map_ext_in. intros row Hin.
    destruct (extract_row row) as [o|e] eqn:E.
    + exact (row_out_included _ _ E).
    + exfalso. exact (extract_row_long_no_error row (fun c0 a => Hlong row c0 a Hin) e E).
  - intros row Hin.
    exact (extract_row_long_no_error row (fun c0 a => Hlong row c0 a Hin)).
Qed.

Lemma extract_succeeds_witness :
  exists tb, nth_error (find_all "tbody" sample_doc) 2 = Some tb /\
  (forall row c0 a, In row (find_all "tr" tb) ->
     hd_error (find_all "td" row) = Some c0 -> find "a" c0 = Some a ->
     (3 <= length (find_all "td" row))%nat) /\
  extract sample_doc = Ok (flat_map included_row (find_all "tr" tb)).
Proof.
  eexists. split; [reflexivity|].
  assert (Hl : forall row c0 a,
     In row (find_all "tr" (Elem "tbody" [
      Elem "tr" [Elem "th" [Text "Country"]; Elem "th" [Text "GDP"]];
      Elem "tr" [Elem "td" [Text " "; Elem "a" [Text "United States"]];
                 Elem "td" [Text "Americas"];
                 Elem "td" [Text "26,854,599"]];
      Elem "tr" [Elem "td" [Elem "a" [Text "China"]];
                 Elem "td" [Text "Asia"];
                 Elem "td" [Text " 19,373,586 "; Elem "sup" [Text "[n 1]"]]];
      Elem "tr" [Elem "td" [Text "World"]; Elem "td" [];
                 Elem "td" [Text "105,568,776"]];
      Elem "tr" [Elem "td" [Elem "a" [Text "Somewhere"]];
                 Elem "td" [Text "Asia"]; Elem "td" [Text "-"]]])) ->
     hd_error (find_all "td" row) = Some c0 -> find "a" c0 = Some a ->
     (3 <= length (find_all "td" row))%nat).
  { intros row c0 a Hin Hhd Ha. simpl in Hin.
    repeat (destruct Hin as [<-|Hin];
            [simpl in *; first [discriminate | lia]|]); contradiction. }
  split; [exact Hl|].
  apply (extract_succeeds sample_doc _ eq_refl Hl).
Defined.

Lemma scan_decimal_dots cs m k dot nd res :
  scan_decimal cs m k dot nd = Some res ->
  (count_occ Ascii.ascii_dec cs "."%char + (if dot then 1 else 0) <= 1)%nat.
Proof.
  revert m k dot nd.
  induction cs as [|c cs IH]; simpl; intros m k dot nd H.
  - destruct dot; lia.
  - destruct (is_digit c) eqn:Ed.
    + apply IH in H.
      destruct (Ascii.ascii_dec c "."%char); [subst c; discriminate|lia].
    + destruct (Ascii.eqb c "."%char) eqn:Ee; [|discriminate].
      apply Ascii.eqb_eq in Ee; subst c.
      destruct dot; [discriminate|].
      apply IH in H. destruct (Ascii.ascii_dec "."%char "."%char); [lia|congruence].
Qed.

Lemma clean_dots s :
  count_occ Ascii.ascii_dec (list_ascii_of_string (clean s)) "."%char =
  count_occ Ascii.ascii_dec (list_ascii_of_string s) "."%char.
Proof.
  unfold clean. rewrite list_ascii_of_string_of_list_ascii.
  induction (list_ascii_of_string s) as [|c cs IH]; simpl; [reflexivity|].
  destruct (Ascii.ascii_dec c "."%char) as [->|Hne].
  - simpl. destruct (Ascii.ascii_dec "."%char "."%char); [|congruence]. now rewrite IH.
  - destruct (is_digit c || Ascii.eqb c "."%char) eqn:E; simpl.
    + destruct (Ascii.ascii_dec c "."%char); [congruence|exact IH].
    + exact IH.
Qed.

(** A GDP text with two or more periods (such as "1.234.567", periods used
    as thousands separators) never parses: its row is silently dropped by
    [transform], wherever it stands. *)
Theorem transform_drops_two_periods l1 r l2 :
  (2 <= count_occ Ascii.ascii_dec (list_ascii_of_string (GDP_USD_millions r)) "."%char)%nat ->
  transform (l1 ++ r :: l2) = transform l1 ++ transform l2.
Proof.
  intros H.
  assert (Hn : to_numeric (clean (GDP_USD_millions r)) = None).
  { unfold to_numeric.
    destruct (scan_decimal _ 0 0 false 0) as [res|] eqn:E; [|reflexivity].
    apply scan_decimal_dots in E. rewrite clean_dots in E. lia. }
  rewrite transform_app, transform_cons.
  unfold convert_row; now rewrite Hn.
Qed.

Lemma transform_drops_two_periods_witness :
  (2 <= count_occ Ascii.ascii_dec (list_ascii_of_string "1.234.567") "."%char)%nat /\
  transform ([mkRawRow "A" "1,234"] ++ mkRawRow "D" "1.234.567" :: [])
  = transform [mkRawRow "A" "1,234"] ++ transform [].
Proof.
  split; [simpl; lia|].
  apply transform_drops_two_periods. simpl; lia.
Defined.

(** A character list with no whitespace at either end. *)
Definition trimmed (cs : list ascii) : Prop :=
  drop_space cs = cs /\ drop_space (rev cs) = rev cs.

Lemma drop_space_idem cs : drop_space (drop_space cs) = drop_space cs.
Proof.
  induction cs as [|c cs IH]; simpl; [reflexivity|].
  destruct (is_space c) eqn:E; [exact IH|simpl; now rewrite E].
Qed.

Lemma drop_space_app_r cs l :
  drop_space cs <> [] -> drop_space (cs ++ l) = drop_space cs ++ l.
Proof.
  induction cs as [|c cs IH]; simpl; [congruence|].
  destruct (is_space c); [exact IH|reflexivity].
Qed.

Lemma drop_space_fixed_head c cs :
  drop_space (c :: cs) = c :: cs -> is_space c = false.
Proof.
  simpl. destruct (is_space c) eqn:E; [|reflexivity].
  intros H. assert (Hl := f_equal (@length ascii) H). simpl in Hl.
  assert (length (drop_space cs) <= length cs)%nat.
  { clear. induction cs as [|x cs IH]; simpl; [lia|].
    destruct (is_space x); simpl; lia. }
  lia.
Qed.

Lemma drop_space_snoc l x :
  is_space x = false -> drop_space (l ++ [x]) = drop_space l ++ [x].
Proof.
  intros Hx. induction l as [|c l IH]; simpl; [now rewrite Hx|].
  destruct (is_space c); [exact IH|reflexivity].
Qed.

Lemma py_strip_trimmed s : trimmed (list_ascii_of_string (py_strip s)).
Proof.
  unfold py_strip, trimmed. rewrite list_ascii_of_string_of_list_ascii.
  assert (Ha : drop_space (drop_space (list_ascii_of_string s)) =
               drop_space (list_ascii_of_string s)) by apply drop_space_idem.
  revert Ha. generalize (drop_space (list_ascii_of_string s)) as a.
  intros a Ha.
  split; [|rewrite rev_involutive; apply drop_space_idem].
  destruct a as [|x a']; [reflexivity|].
  pose proof (drop_space_fixed_head _ _ Ha) as Hx.
  simpl rev. rewrite (drop_space_snoc _ _ Hx), rev_app_distr.
  simpl. now rewrite Hx.
Qed.

Lemma trimmed_nonempty_head cs :
  trimmed cs -> cs <> [] -> drop_space cs <> [].
Proof. intros [H _] Hne. now rewrite H. Qed.

Lemma trimmed_app l1 l2 :
  trimmed l1 -> trimmed l2 -> l1 <> [] -> l2 <> [] -> trimmed (l1 ++ l2).
Proof.
  intros H1 H2 Hn1 Hn2. split.
  - rewrite drop_space_app_r by now apply trimmed_nonempty_head.
    now rewrite (proj1 H1).
  - rewrite rev_app_distr, drop_space_app_r.
    + now rewrite (proj2 H2).
    + rewrite (proj2 H2). intros E. apply Hn2.
      now apply (f_equal (@rev ascii)) in E; rewrite rev_involutive in E.
Qed.

Lemma list_ascii_of_string_append s1 s2 :
  list_ascii_of_string (s1 ++ s2) = list_ascii_of_string s1 ++ list_ascii_of_string s2.
Proof.
  induction s1 as [|c s1 IH]; simpl; [reflexivity|]. now rewrite IH.
Qed.

Lemma concat_trimmed (l : list string) :
  Forall (fun s => s <> "" /\ trimmed (list_ascii_of_string s)) l ->
  trimmed (list_ascii_of_string (String.concat "" l)).
Proof.
  induction l as [|s l IH]; intros H; [split; reflexivity|].
  inversion H as [|? ? [Hne Ht] Hl]; subst.
  destruct l as [|s' l'].
  - exact Ht.
  - change (String.concat "" (s :: s' :: l')) with
      (s ++ "" ++ String.concat "" (s' :: l'))%string.
    simpl append at 2. rewrite list_ascii_of_string_append.
    apply trimmed_app; [exact Ht|exact (IH Hl)| |].
    + destruct s; [congruence|discriminate].
    + inversion Hl as [|? ? [Hne' _] _]; subst.
      destruct s' as [|c s'']; [congruence|].
      destruct l'; simpl; discriminate.
Qed.

Lemma get_text_strip_trimmed n :
  py_strip (get_text_strip n) = get_text_strip n.
Proof.
  assert (Ht : trimmed (list_ascii_of_string (get_text_strip n))).
  { unfold get_text_strip. apply concat_trimmed.
    apply Forall_forall. intros s Hs.
    apply filter_In in Hs as [Hs Hne]. apply in_map_iff in Hs as (t & <- & _).
    split; [|apply py_strip_trimmed].
    intros E. rewrite E in Hne. discriminate. }
  unfold py_strip. destruct Ht as [H1 H2].
  rewrite H1, H2, rev_involutive. apply string_of_list_ascii_of_string.
Qed.

(** Every field [extract] returns is already stripped: stripping the
    country or the GDP text of an extracted row leaves it unchanged. *)
Theorem extract_fields_stripped doc t r :
  extract doc = Ok t -> In r t ->
  py_strip (raw_Country r) = raw_Country r /\ py_strip (GDP_USD_millions r) = GDP_USD_millions r.
Proof.
  intros H Hr. destruct (extract_ok _ _ H) as (tb & _ & -> & _).
  apply in_flat_map in Hr as (row & _ & Hr).
  unfold row_out, extract_row in Hr.
  destruct (find_all "td" row) as [|c0 l]; [contradiction|].
  destruct (find "a" c0) as [a|]; [|contradiction].
  destruct (py_index (c0 :: l) 2) as [c2|e]; [|contradiction].
  destruct (has_digit (get_text_strip c2)); [|contradiction].
  destruct Hr as [<-|[]]; simpl.
  split; apply get_text_strip_trimmed.
Qed.

Lemma extract_fields_stripped_witness :
  extract sample_doc =
    Ok [mkRawRow "United States" "26,854,599"; mkRawRow "China" "19,373,586[n 1]"] /\ py_strip "China" = "China" /\ py_strip "19,373,586[n 1]" = "19,373,586[n 1]".
Proof.
  split; [reflexivity|].
  apply (extract_fields_stripped sample_doc
           [mkRawRow "United States" "26,854,599";
            mkRawRow "China" "19,373,586[n 1]"]
           (mkRawRow "China" "19,373,586[n 1]")); [reflexivity|right; left; reflexivity].
Defined.

(** The log file is only appended to: whatever happens in a run, the lines
    it held before the run are still its first lines afterwards. *)
Theorem main_log_append_only env log0 csv0 db0 r s :
  main env (start log0 csv0 db0) = (r, s) ->
  exists added, log_lines s = log0 ++ added.
Proof.
  case_run env; intros Hm; injection Hm as _ <-; simpl;
    rewrite <- ?app_assoc;
    first [exists []; now rewrite app_nil_r | eexists; reflexivity].
Qed.

Lemma main_log_append_only_witness :
  main c8_env (start ["old"] None []) =
    (Ok tt, mkSt ["old"; "T : Preliminaries complete. Initiating ETL process.";
                  "T : ERROR: connection error"]
                 [] ["ERROR: connection error"] None [] None
                 [(Extraction, RequestError)]) /\
  exists added,
    ["old"; "T : Preliminaries complete. Initiating ETL process.";
     "T : ERROR: connection error"] = ["old"] ++ added.
Proof.
  split; [reflexivity|].
  exact (main_log_append_only c8_env ["old"] None [] (Ok tt)
    (mkSt ["old"; "T : Preliminaries complete. Initiating ETL process.";
           "T : ERROR: connection error"]
          [] ["ERROR: connection error"] None [] None
          [(Extraction, RequestError)]) eq_refl).
Defined.

(** The environment of a run where everything succeeds, on [sample_doc]. *)
Definition ok_env : Env := mkEnv (Some sample_doc) true true true "T".

(** Its final state, from a database holding one unrelated table. *)
Definition ok_final : St :=
  Eval vm_compute in snd (main ok_env (start [] None [("Other", [])])).

(** The database is only written after the CSV file, and with the same
    rows: at the end of a run it is either as it was, or its
    [Countries_by_GDP] table was replaced by exactly what the CSV holds. *)
Theorem main_db_matches_csv env log0 csv0 db0 r s :
  main env (start log0 csv0 db0) = (r, s) ->
  db_tables s = db0 \/
  exists df, csv_file s = Some df /\ db_tables s = replace_table table_name df db0.
Proof.
  case_run env; intros Hm; injection Hm as _ <-; simpl;
    first [left; reflexivity | right; eexists; split; reflexivity].
Qed.

Lemma main_db_matches_csv_witness :
  main ok_env (start [] None [("Other", [])]) = (Ok tt, ok_final) /\
  (db_tables ok_final = [("Other", [])] \/
   exists df, csv_file ok_final = Some df /\
     db_tables ok_final = replace_table table_name df [("Other", [])]).
Proof.
  split; [vm_compute; reflexivity|].
  apply (main_db_matches_csv ok_env [] None [("Other", [])] (Ok tt)).
  vm_compute; reflexivity.
Defined.

(** No table is written without a connection: when the run ends with the
    global [conn] never bound, the database is exactly as it was. *)
Theorem main_db_needs_conn env log0 csv0 db0 r s :
  main env (start log0 csv0 db0) = (r, s) -> conn s = None -> db_tables s = db0.
Proof.
  case_run env; intros Hm; injection Hm as _ <-; simpl; intros Hc;
    first [reflexivity | discriminate].
Qed.

Lemma main_db_needs_conn_witness :
  main c8_env (start [] None [("Other", [])]) =
    (Ok tt, mkSt (log_lines c8_final) [] (stderr c8_final) None
                 [("Other", [])] None (raised c8_final)) /\
  conn c8_final = None /\ db_tables
    (mkSt (log_lines c8_final) [] (stderr c8_final) None
          [("Other", [])] None (raised c8_final)) = [("Other", [])].
Proof.
  split; [reflexivity|]. split; [reflexivity|].
  apply (main_db_needs_conn c8_env [] None [("Other", [])] (Ok tt)); reflexivity.
Defined.


(** [transform] never outputs a negative GDP: the cleaning regex removes
    every sign, so each value is a non-negative double or [+inf], never a
    negative number or [-inf]. *)
Theorem transform_never_negative df c :
  In c (transform df) -> f64_nonneg (GDP_USD_billions c).
Proof.
  intros H. destruct (transform_in _ _ H) as (r & _ & Hc).
  exact (convert_row_nonneg _ _ Hc).
Qed.

Lemma transform_never_negative_witness :
  In (mkCleanRow "X" PosInf) (transform [mkRawRow "X" ("-" ++ c5_gdp)]) /\
  f64_nonneg PosInf.
Proof.
  split; [vm_compute; left; reflexivity|].
  apply (transform_never_negative [mkRawRow "X" ("-" ++ c5_gdp)]
           (mkCleanRow "X" PosInf)).
  vm_compute; left; reflexivity.
Defined.
